(** * Stream live inputs: a shallow embedding of [stream_live_inputs.go]

    The six request functions of the live-input client are embedded as
    computations in a small monad that threads the state of the remote
    end and records every invocation of the request executor.  Go values
    keep their shape: a slice is either nil or a sequence of elements, an
    [error] result is an [option error] (nil is [None]), a pointer is an
    [option], and every type has its zero value. *)

From Stdlib Require Import String Ascii List Bool ZArith.
From Stdlib.Strings Require Import Byte.
Import ListNotations.
Local Open Scope list_scope.
Local Open Scope string_scope.

(** ** Go values *)

(** [[]byte] *)
Definition bytes := list byte.

(** A Go slice: the nil slice differs from an allocated slice of
    length zero, and both have length 0. *)
Inductive slice (T : Type) : Type :=
| nil_slice
| make_slice (elems : list T).
Arguments nil_slice {T}.
Arguments make_slice {T} elems.

Definition elems_of {T} (s : slice T) : list T :=
  match s with
  | nil_slice => []
  | make_slice l => l
  end.

Definition len {T} (s : slice T) : nat := length (elems_of s).

Definition is_nil {T} (s : slice T) : bool :=
  match s with
  | nil_slice => true
  | make_slice _ => false
  end.

(** Go's [error] values.  The two sentinels are package-level variables
    made by [errors.New] and are told apart by identity; every other
    error (from the request executor or from the JSON decoder) is opaque
    to this file and carries its message. *)
Inductive error : Type :=
| ErrMissingAccountID
| ErrMissingLiveInputID
| OtherError (msg : string).

Definition Error (e : error) : option string :=
  match e with
  | ErrMissingAccountID => None (* message declared outside this file *)
  | ErrMissingLiveInputID => Some "required live input id missing"
  | OtherError msg => Some msg
  end.

(** The zero value of a type. *)
Class Zero (T : Type) : Type := zero : T.

#[global] Instance string_Zero : Zero string := "".
#[global] Instance bool_Zero : Zero bool := false.
#[global] Instance int_Zero : Zero Z := 0%Z.
#[global] Instance pointer_Zero {T} : Zero (option T) := None.
#[global] Instance slice_Zero {T} : Zero (slice T) := nil_slice.

(** [net/http] method names. *)
Definition MethodGet : string := "GET".
Definition MethodPost : string := "POST".
Definition MethodPut : string := "PUT".
Definition MethodDelete : string := "DELETE".

(** [fmt.Sprintf] restricted to the [%s] verb with string operands, the
    only use this file makes of it. *)
Fixpoint Sprintf (format : string) (a : list string) : string :=
  match format with
  | String "%" (String "s" rest) =>
      match a with
      | x :: a' => x ++ Sprintf rest a'
      | [] => "%!s(MISSING)" ++ Sprintf rest []
      end
  | String c rest => String c (Sprintf rest a)
  | EmptyString => EmptyString
  end.

(** Fields shared by several structs keep their source name through a
    class of accessors. *)
Class HasAccountID (T : Type) : Type := AccountID : T -> string.
Class HasLiveInputID (T : Type) : Type := LiveInputID : T -> string.
Class HasResult (T R : Type) : Type := Result : T -> R.

(** [json.Unmarshal(data, &v)]: the decoder writes into the destination
    as it goes, so on failure the destination may be left partly
    filled; it is returned next to the error. *)
Class Unmarshaler (T : Type) : Type := Unmarshal : bytes -> T -> T * option error.

Section LiveInputClient.

(** [context.Context], [time.Time] and the dynamic values held by an
    [interface{}]. *)
Variables Ctx Time Any : Type.

(** Declared in other files of the package: the response envelope
    embedded in every response struct, and the video list types. *)
Variables Response StreamVideo StreamListResponse : Type.
Context {Response_Zero : Zero Response}.
Context {StreamListResponse_Zero : Zero StreamListResponse}.
Context {StreamListResponse_Result : HasResult StreamListResponse (slice StreamVideo)}.

(** *** Data model *)

(** [map[string]interface{}]; the zero value is the nil map. *)
Definition Meta : Type := option (list (string * Any)).

Record StreamLiveInputListItem : Type := {
  StreamLiveInputListItem_UID : string;
  StreamLiveInputListItem_Created : option Time;
  StreamLiveInputListItem_Modified : option Time;
  StreamLiveInputListItem_Meta : Meta;
  StreamLiveInputListItem_DeleteRecordingAfterDays : Z
}.

Record StreamLiveInputRTMPS : Type := {
  StreamLiveInputRTMPS_URL : string;
  StreamLiveInputRTMPS_StreamKey : string
}.

Record StreamLiveInputSRT : Type := {
  StreamLiveInputSRT_URL : string;
  StreamLiveInputSRT_StreamID : string;
  StreamLiveInputSRT_Passphrase : string
}.

Record StreamLiveInputWebRTC : Type := {
  StreamLiveInputWebRTC_URL : string
}.

Record StreamLiveInputStatus : Type := {
  StreamLiveInputStatus_Reason : string;
  StreamLiveInputStatus_State : string;
  StreamLiveInputStatus_StatusEnteredAt : option Time;
  StreamLiveInputStatus_StatusLastSeen : option Time
}.

Record StreamLiveInputStatuses : Type := {
  StreamLiveInputStatuses_Current : StreamLiveInputStatus;
  StreamLiveInputStatuses_History : slice StreamLiveInputStatus
}.

Record StreamLiveInputRecording : Type := {
  StreamLiveInputRecording_Mode : string;
  StreamLiveInputRecording_RequireSignedURLs : bool;
  StreamLiveInputRecording_AllowedOrigins : slice string;
  StreamLiveInputRecording_TimeoutSeconds : Z
}.

Record StreamLiveInput : Type := {
  StreamLiveInput_UID : string;
  StreamLiveInput_RTMPS : StreamLiveInputRTMPS;
  StreamLiveInput_RTMPSPlayback : StreamLiveInputRTMPS;
  StreamLiveInput_SRT : StreamLiveInputSRT;
  StreamLiveInput_SRTPlayback : StreamLiveInputRTMPS;
  StreamLiveInput_WebRTC : StreamLiveInputWebRTC;
  StreamLiveInput_WebRTCPlayback : StreamLiveInputWebRTC;
  StreamLiveInput_Created : option Time;
  StreamLiveInput_Modified : option Time;
  StreamLiveInput_Meta : Meta;
  StreamLiveInput_DefaultCreator : string;
  StreamLiveInput_Status : option StreamLiveInputStatuses;
  StreamLiveInput_Recording : StreamLiveInputRecording;
  StreamLiveInput_DeleteRecordingAfterDays : Z;
  StreamLiveInput_PreferLowLatency : bool
}.

Record ListStreamLiveInputsParameters : Type := {
  ListStreamLiveInputsParameters_AccountID : string;
  ListStreamLiveInputsParameters_IncludeCounts : bool
}.

Record CreateStreamLiveInputParameters : Type := {
  CreateStreamLiveInputParameters_AccountID : string;
  CreateStreamLiveInputParameters_DefaultCreator : string;
  CreateStreamLiveInputParameters_DeleteRecordingAfterDays : Z;
  CreateStreamLiveInputParameters_Meta : Meta;
  CreateStreamLiveInputParameters_Recording : StreamLiveInputRecording;
  CreateStreamLiveInputParameters_PreferLowLatency : bool
}.

Record StreamLiveInputParameters : Type := {
  StreamLiveInputParameters_AccountID : string;
  StreamLiveInputParameters_LiveInputID : string
}.

Record UpdateStreamLiveInputParameters : Type := {
  UpdateStreamLiveInputParameters_AccountID : string;
  UpdateStreamLiveInputParameters_LiveInputID : string;
  UpdateStreamLiveInputParameters_DefaultCreator : string;
  UpdateStreamLiveInputParameters_DeleteRecordingAfterDays : Z;
  UpdateStreamLiveInputParameters_Meta : Meta;
  UpdateStreamLiveInputParameters_Recording : StreamLiveInputRecording;
  UpdateStreamLiveInputParameters_PreferLowLatency : bool
}.

Record StreamLiveInputsListResponse : Type := {
  StreamLiveInputsListResponse_Response : Response;
  StreamLiveInputsListResponse_Result : slice StreamLiveInputListItem
}.

Record StreamLiveInputResponse : Type := {
  StreamLiveInputResponse_Response : Response;
  StreamLiveInputResponse_Result : StreamLiveInput
}.

#[local] Instance ListStreamLiveInputsParameters_HasAccountID
  : HasAccountID ListStreamLiveInputsParameters :=
  ListStreamLiveInputsParameters_AccountID.
#[local] Instance CreateStreamLiveInputParameters_HasAccountID
  : HasAccountID CreateStreamLiveInputParameters :=
  CreateStreamLiveInputParameters_AccountID.
#[local] Instance StreamLiveInputParameters_HasAccountID
  : HasAccountID StreamLiveInputParameters :=
  StreamLiveInputParameters_AccountID.
#[local] Instance UpdateStreamLiveInputParameters_HasAccountID
  : HasAccountID UpdateStreamLiveInputParameters :=
  UpdateStreamLiveInputParameters_AccountID.
#[local] Instance StreamLiveInputParameters_HasLiveInputID
  : HasLiveInputID StreamLiveInputParameters :=
  StreamLiveInputParameters_LiveInputID.
#[local] Instance UpdateStreamLiveInputParameters_HasLiveInputID
  : HasLiveInputID UpdateStreamLiveInputParameters :=
  UpdateStreamLiveInputParameters_LiveInputID.
#[local] Instance StreamLiveInputsListResponse_HasResult
  : HasResult StreamLiveInputsListResponse (slice StreamLiveInputListItem) :=
  StreamLiveInputsListResponse_Result.
#[local] Instance StreamLiveInputResponse_HasResult
  : HasResult StreamLiveInputResponse StreamLiveInput :=
  StreamLiveInputResponse_Result.

(** Zero values of the structs, field by field. *)
#[local] Instance StreamLiveInputRTMPS_Zero : Zero StreamLiveInputRTMPS :=
  {| StreamLiveInputRTMPS_URL := zero; StreamLiveInputRTMPS_StreamKey := zero |}.
#[local] Instance StreamLiveInputSRT_Zero : Zero StreamLiveInputSRT :=
  {| StreamLiveInputSRT_URL := zero;
     StreamLiveInputSRT_StreamID := zero;
     StreamLiveInputSRT_Passphrase := zero |}.
#[local] Instance StreamLiveInputWebRTC_Zero : Zero StreamLiveInputWebRTC :=
  {| StreamLiveInputWebRTC_URL := zero |}.
#[local] Instance StreamLiveInputRecording_Zero : Zero StreamLiveInputRecording :=
  {| StreamLiveInputRecording_Mode := zero;
     StreamLiveInputRecording_RequireSignedURLs := zero;
     StreamLiveInputRecording_AllowedOrigins := zero;
     StreamLiveInputRecording_TimeoutSeconds := zero |}.
#[local] Instance StreamLiveInput_Zero : Zero StreamLiveInput :=
  {| StreamLiveInput_UID := zero;
     StreamLiveInput_RTMPS := zero;
     StreamLiveInput_RTMPSPlayback := zero;
     StreamLiveInput_SRT := zero;
     StreamLiveInput_SRTPlayback := zero;
     StreamLiveInput_WebRTC := zero;
     StreamLiveInput_WebRTCPlayback := zero;
     StreamLiveInput_Created := zero;
     StreamLiveInput_Modified := zero;
     StreamLiveInput_Meta := zero;
     StreamLiveInput_DefaultCreator := zero;
     StreamLiveInput_Status := zero;
     StreamLiveInput_Recording := zero;
     StreamLiveInput_DeleteRecordingAfterDays := zero;
     StreamLiveInput_PreferLowLatency := zero |}.
#[local] Instance StreamLiveInputsListResponse_Zero : Zero StreamLiveInputsListResponse :=
  {| StreamLiveInputsListResponse_Response := zero;
     StreamLiveInputsListResponse_Result := zero |}.
#[local] Instance StreamLiveInputResponse_Zero : Zero StreamLiveInputResponse :=
  {| StreamLiveInputResponse_Response := zero;
     StreamLiveInputResponse_Result := zero |}.

(** *** The request executor *)

(** The [params interface{}] argument of the executor: nil, or one of
    the parameter structs of this file. *)
Inductive params : Type :=
| params_nil
| params_Create (options : CreateStreamLiveInputParameters)
| params_LiveInput (options : StreamLiveInputParameters)
| params_Update (options : UpdateStreamLiveInputParameters).

(** One invocation of [api.makeRequestContext(ctx, method, uri, params)]. *)
Record Request : Type := {
  Request_ctx : Ctx;
  Request_method : string;
  Request_uri : string;
  Request_params : params
}.

(** Everything the executor reads and changes: the client's
    configuration and the remote end. *)
Variable World : Type.

(** The I/O done by [makeRequestContext], declared in another file of
    the package: from a request and the world, the response body and
    the error, and the world after the call. *)
Variable roundTrip : Request -> World -> (bytes * option error) * World.

(** [buildURI(path, options)], declared in another file of the package. *)
Variable buildURI : string -> ListStreamLiveInputsParameters -> string.

(** The JSON decoder at the three destination types. *)
Context {Unmarshal_StreamLiveInputsListResponse : Unmarshaler StreamLiveInputsListResponse}.
Context {Unmarshal_StreamLiveInputResponse : Unmarshaler StreamLiveInputResponse}.
Context {Unmarshal_StreamListResponse : Unmarshaler StreamListResponse}.

(** *** The monad of the client

    A computation takes the world and returns its value, the world
    after it, and the executor invocations it made, in order. *)
Record Outcome (A : Type) : Type := {
  value : A;
  world : World;
  invocations : list Request
}.
Arguments value {A} _.
Arguments world {A} _.
Arguments invocations {A} _.

Definition M (A : Type) : Type := World -> Outcome A.

Definition ret {A} (a : A) : M A :=
  fun w => {| value := a; world := w; invocations := [] |}.

Definition bind {A B} (m : M A) (k : A -> M B) : M B :=
  fun w =>
    let o := m w in
    let o' := k (value o) (world o) in
    {| value := value o';
       world := world o';
       invocations := (invocations o ++ invocations o')%list |}.

Notation "x <- m ;; k" := (bind m (fun x => k))
  (at level 100, m at next level, right associativity).
Notation "' pat <- m ;; k" := (bind m (fun x => match x with pat => k end))
  (at level 100, pat pattern, m at next level, right associativity).

Definition makeRequestContext (ctx : Ctx) (method uri : string) (p : params)
  : M (bytes * option error) :=
  fun w =>
    let req := {| Request_ctx := ctx; Request_method := method;
                  Request_uri := uri; Request_params := p |} in
    let '(out, w') := roundTrip req w in
    {| value := out; world := w'; invocations := [req] |}.

(** *** The six operations *)

Definition ListStreamLiveInputs (ctx : Ctx) (options : ListStreamLiveInputsParameters)
  : M (slice StreamLiveInputListItem * option error) :=
  if AccountID options =? "" then
    ret (nil_slice, Some ErrMissingAccountID)
  else
    let uri := buildURI (Sprintf "/accounts/%s/stream/live_inputs" [AccountID options]) options in
    '(res, err) <- makeRequestContext ctx MethodGet uri params_nil ;;
    match err with
    | Some e => ret (make_slice [], Some e)
    | None =>
        let '(streamListResponse, err) :=
          Unmarshal res (zero : StreamLiveInputsListResponse) in
        match err with
        | Some e => ret (make_slice [], Some e)
        | None => ret (Result streamListResponse, None)
        end
    end.

Definition CreateStreamLiveInput (ctx : Ctx) (options : CreateStreamLiveInputParameters)
  : M (StreamLiveInput * option error) :=
  if AccountID options =? "" then
    ret (zero, Some ErrMissingAccountID)
  else
    let uri := Sprintf "/accounts/%s/stream/live_inputs" [AccountID options] in
    '(res, err) <- makeRequestContext ctx MethodPost uri (params_Create options) ;;
    match err with
    | Some e => ret (zero, Some e)
    | None =>
        let '(streamListResponse, err) :=
          Unmarshal res (zero : StreamLiveInputResponse) in
        match err with
        | Some e => ret (zero, Some e)
        | None => ret (Result streamListResponse, None)
        end
    end.

Definition DeleteStreamLiveInput (ctx : Ctx) (options : StreamLiveInputParameters)
  : M (option error) :=
  if AccountID options =? "" then
    ret (Some ErrMissingAccountID)
  else if LiveInputID options =? "" then
    ret (Some ErrMissingLiveInputID)
  else
    let uri := Sprintf "/accounts/%s/stream/live_inputs/%s"
                 [AccountID options; LiveInputID options] in
    '(_, err) <- makeRequestContext ctx MethodDelete uri (params_LiveInput options) ;;
    match err with
    | Some e => ret (Some e)
    | None => ret None
    end.

Definition GetStreamLiveInput (ctx : Ctx) (options : StreamLiveInputParameters)
  : M (StreamLiveInput * option error) :=
  if AccountID options =? "" then
    ret (zero, Some ErrMissingAccountID)
  else if LiveInputID options =? "" then
    ret (zero, Some ErrMissingLiveInputID)
  else
    let uri := Sprintf "/accounts/%s/stream/live_inputs/%s"
                 [AccountID options; LiveInputID options] in
    '(res, err) <- makeRequestContext ctx MethodPost uri (params_LiveInput options) ;;
    match err with
    | Some e => ret (zero, Some e)
    | None =>
        let '(streamListResponse, err) :=
          Unmarshal res (zero : StreamLiveInputResponse) in
        match err with
        | Some e => ret (zero, Some e)
        | None => ret (Result streamListResponse, None)
        end
    end.

Definition UpdateStreamLiveInput (ctx : Ctx) (options : UpdateStreamLiveInputParameters)
  : M (StreamLiveInput * option error) :=
  if AccountID options =? "" then
    ret (zero, Some ErrMissingAccountID)
  else if LiveInputID options =? "" then
    ret (zero, Some ErrMissingLiveInputID)
  else
    let uri := Sprintf "/accounts/%s/stream/live_inputs/%s"
                 [AccountID options; LiveInputID options] in
    '(res, err) <- makeRequestContext ctx MethodPut uri (params_Update options) ;;
    match err with
    | Some e => ret (zero, Some e)
    | None =>
        let '(streamListResponse, err) :=
          Unmarshal res (zero : StreamLiveInputResponse) in
        match err with
        | Some e => ret (zero, Some e)
        | None => ret (Result streamListResponse, None)
        end
    end.

Definition ListStreamLiveInputVideos (ctx : Ctx) (options : StreamLiveInputParameters)
  : M (slice StreamVideo * option error) :=
  if AccountID options =? "" then
    ret (make_slice [], Some ErrMissingAccountID)
  else if LiveInputID options =? "" then
    ret (make_slice [], Some ErrMissingLiveInputID)
  else
    let uri := Sprintf "/accounts/%s/stream/live_inputs/%s/videos"
                 [AccountID options; LiveInputID options] in
    '(res, err) <- makeRequestContext ctx MethodPost uri (params_LiveInput options) ;;
    match err with
    | Some e => ret (make_slice [], Some e)
    | None =>
        let '(streamListResponse, err) :=
          Unmarshal res (zero : StreamListResponse) in
        match err with
        | Some e => ret (make_slice [], Some e)
        | None => ret (Result streamListResponse, None)
        end
    end.

End LiveInputClient.

Arguments value {Ctx Any World A} o.
Arguments world {Ctx Any World A} o.
Arguments invocations {Ctx Any World A} o.
Arguments params_nil {Any}.
Arguments Build_Request {Ctx Any}.
Arguments Request_ctx {Ctx Any} r.
Arguments Request_method {Ctx Any} r.
Arguments Request_uri {Ctx Any} r.
Arguments Request_params {Ctx Any} r.
Arguments makeRequestContext {Ctx Any World} roundTrip ctx method uri p _.
Arguments ListStreamLiveInputs {Ctx Time Any Response Response_Zero World}
  roundTrip buildURI {Unmarshal_StreamLiveInputsListResponse} ctx options _.
Arguments CreateStreamLiveInput {Ctx Time Any Response Response_Zero World}
  roundTrip {Unmarshal_StreamLiveInputResponse} ctx options _.
Arguments DeleteStreamLiveInput {Ctx Any World} roundTrip ctx options _.
Arguments GetStreamLiveInput {Ctx Time Any Response Response_Zero World}
  roundTrip {Unmarshal_StreamLiveInputResponse} ctx options _.
Arguments UpdateStreamLiveInput {Ctx Time Any Response Response_Zero World}
  roundTrip {Unmarshal_StreamLiveInputResponse} ctx options _.
Arguments ListStreamLiveInputVideos {Ctx Any StreamVideo StreamListResponse
  StreamListResponse_Zero StreamListResponse_Result World}
  roundTrip {Unmarshal_StreamListResponse} ctx options _.

#[global] Existing Instances
  ListStreamLiveInputsParameters_HasAccountID
  CreateStreamLiveInputParameters_HasAccountID
  StreamLiveInputParameters_HasAccountID
  UpdateStreamLiveInputParameters_HasAccountID
  StreamLiveInputParameters_HasLiveInputID
  UpdateStreamLiveInputParameters_HasLiveInputID
  StreamLiveInputsListResponse_HasResult
  StreamLiveInputResponse_HasResult
  StreamLiveInputRTMPS_Zero
  StreamLiveInputSRT_Zero
  StreamLiveInputWebRTC_Zero
  StreamLiveInputRecording_Zero
  StreamLiveInput_Zero
  StreamLiveInputsListResponse_Zero
  StreamLiveInputResponse_Zero.
Arguments params_Create {Any} options.
Arguments params_LiveInput {Any} options.
Arguments params_Update {Any} options.

(** ** A canned remote end

    An instance of everything the client is parameterised by, in the
    manner of a test against a local server with prepared replies: the
    world is the queue of replies still to be served, and the decoder
    knows the handful of bodies the replies use. *)
Module Stub.

(** [context.Background()] *)
Definition Ctx : Type := unit.
(** Seconds since the epoch. *)
Definition Time : Type := Z.
(** Metadata values are strings. *)
Definition Any : Type := string.
(** The envelope reduced to its success flag. *)
Definition Response : Type := bool.
(** A video reduced to its identifier. *)
Definition StreamVideo : Type := string.

Record StreamListResponse : Type := {
  StreamListResponse_Response : Response;
  StreamListResponse_Result : slice StreamVideo
}.

#[export] Instance StreamListResponse_Zero : Zero StreamListResponse :=
  {| StreamListResponse_Response := zero; StreamListResponse_Result := zero |}.
#[export] Instance StreamListResponse_HasResult
  : HasResult StreamListResponse (slice StreamVideo) :=
  StreamListResponse_Result.

Definition World : Type := list (bytes * option error).

Definition roundTrip (req : Request Ctx Any) (w : World)
  : (bytes * option error) * World :=
  match w with
  | reply :: w' => (reply, w')
  | [] => (([], Some (OtherError "connection refused")), [])
  end.

Definition buildURI (path : string) (options : ListStreamLiveInputsParameters) : string :=
  if ListStreamLiveInputsParameters_IncludeCounts options
  then path ++ "?include_counts=true"
  else path.

(** The double-quote character, and the reply bodies. *)
Definition dq : string := String (ascii_of_nat 34) EmptyString.

Definition body (s : string) : bytes := list_byte_of_string s.

(** An envelope whose result is the empty array. *)
Definition empty_list_body : bytes :=
  body ("{" ++ dq ++ "result" ++ dq ++ ":[]}").

(** An envelope whose result is one object with a uid. *)
Definition live_input_body : bytes :=
  body ("{" ++ dq ++ "result" ++ dq ++ ":{" ++ dq ++ "uid" ++ dq ++ ":"
            ++ dq ++ "li1" ++ dq ++ "}}").

(** The same, cut short after the uid: not valid JSON. *)
Definition truncated_body : bytes :=
  body ("{" ++ dq ++ "result" ++ dq ++ ":{" ++ dq ++ "uid" ++ dq ++ ":"
            ++ dq ++ "li1" ++ dq).

Definition bytes_eqb (a b : bytes) : bool :=
  (string_of_list_byte a =? string_of_list_byte b)%string.

Definition syntax_error : error := OtherError "unexpected end of JSON input".

Definition with_uid (uid : string) (v : StreamLiveInput Time Any)
  : StreamLiveInput Time Any :=
  {| StreamLiveInput_UID := uid;
     StreamLiveInput_RTMPS := StreamLiveInput_RTMPS _ _ v;
     StreamLiveInput_RTMPSPlayback := StreamLiveInput_RTMPSPlayback _ _ v;
     StreamLiveInput_SRT := StreamLiveInput_SRT _ _ v;
     StreamLiveInput_SRTPlayback := StreamLiveInput_SRTPlayback _ _ v;
     StreamLiveInput_WebRTC := StreamLiveInput_WebRTC _ _ v;
     StreamLiveInput_WebRTCPlayback := StreamLiveInput_WebRTCPlayback _ _ v;
     StreamLiveInput_Created := StreamLiveInput_Created _ _ v;
     StreamLiveInput_Modified := StreamLiveInput_Modified _ _ v;
     StreamLiveInput_Meta := StreamLiveInput_Meta _ _ v;
     StreamLiveInput_DefaultCreator := StreamLiveInput_DefaultCreator _ _ v;
     StreamLiveInput_Status := StreamLiveInput_Status _ _ v;
     StreamLiveInput_Recording := StreamLiveInput_Recording _ _ v;
     StreamLiveInput_DeleteRecordingAfterDays :=
       StreamLiveInput_DeleteRecordingAfterDays _ _ v;
     StreamLiveInput_PreferLowLatency := StreamLiveInput_PreferLowLatency _ _ v |}.

(** The list decoder: the empty-array envelope decodes to an allocated
    slice of length zero; anything else is rejected. *)
#[export] Instance Unmarshal_StreamLiveInputsListResponse
  : Unmarshaler (StreamLiveInputsListResponse Time Any Response) :=
  fun data v =>
    if bytes_eqb data empty_list_body then
      ({| StreamLiveInputsListResponse_Response := StreamLiveInputsListResponse_Response _ _ _ v;
          StreamLiveInputsListResponse_Result := make_slice [] |}, None)
    else (v, Some syntax_error).

(** The single-resource decoder: it fills the uid as soon as it has
    read it, so the truncated body leaves the destination partly
    filled next to the error. *)
#[export] Instance Unmarshal_StreamLiveInputResponse
  : Unmarshaler (StreamLiveInputResponse Time Any Response) :=
  fun data v =>
    let filled :=
      {| StreamLiveInputResponse_Response := StreamLiveInputResponse_Response _ _ _ v;
         StreamLiveInputResponse_Result :=
           with_uid "li1" (StreamLiveInputResponse_Result _ _ _ v) |} in
    if bytes_eqb data live_input_body then (filled, None)
    else if bytes_eqb data truncated_body then (filled, Some syntax_error)
    else (v, Some syntax_error).

#[export] Instance Unmarshal_StreamListResponse : Unmarshaler StreamListResponse :=
  fun data v =>
    if bytes_eqb data empty_list_body then
      ({| StreamListResponse_Response := StreamListResponse_Response v;
          StreamListResponse_Result := make_slice [] |}, None)
    else (v, Some syntax_error).

Definition background : Ctx := tt.

Definition list_options (account : string) : ListStreamLiveInputsParameters :=
  {| ListStreamLiveInputsParameters_AccountID := account;
     ListStreamLiveInputsParameters_IncludeCounts := false |}.

Definition create_options (account : string) : CreateStreamLiveInputParameters Any :=
  {| CreateStreamLiveInputParameters_AccountID := account;
     CreateStreamLiveInputParameters_DefaultCreator := zero;
     CreateStreamLiveInputParameters_DeleteRecordingAfterDays := zero;
     CreateStreamLiveInputParameters_Meta := zero;
     CreateStreamLiveInputParameters_Recording := zero;
     CreateStreamLiveInputParameters_PreferLowLatency := zero |}.

Definition live_input_options (account id : string) : StreamLiveInputParameters :=
  {| StreamLiveInputParameters_AccountID := account;
     StreamLiveInputParameters_LiveInputID := id |}.

Definition update_options (account id : string) : UpdateStreamLiveInputParameters Any :=
  {| UpdateStreamLiveInputParameters_AccountID := account;
     UpdateStreamLiveInputParameters_LiveInputID := id;
     UpdateStreamLiveInputParameters_DefaultCreator := zero;
     UpdateStreamLiveInputParameters_DeleteRecordingAfterDays := zero;
     UpdateStreamLiveInputParameters_Meta := zero;
     UpdateStreamLiveInputParameters_Recording := zero;
     UpdateStreamLiveInputParameters_PreferLowLatency := zero |}.

End Stub.

(** ** Properties of the operations *)

Section Properties.

Context {Ctx Time Any Response StreamVideo StreamListResponse World : Type}.
Context {Response_Zero : Zero Response}.
Context {StreamListResponse_Zero : Zero StreamListResponse}.
Context {StreamListResponse_Result : HasResult StreamListResponse (slice StreamVideo)}.
Variable roundTrip : Request Ctx Any -> World -> (bytes * option error) * World.
Variable buildURI : string -> ListStreamLiveInputsParameters -> string.
Context {Unmarshal_List : Unmarshaler (StreamLiveInputsListResponse Time Any Response)}.
Context {Unmarshal_Input : Unmarshaler (StreamLiveInputResponse Time Any Response)}.
Context {Unmarshal_Videos : Unmarshaler StreamListResponse}.

Lemma Sprintf_collection_uri (account : string) :
  Sprintf "/accounts/%s/stream/live_inputs" [account]
  = "/accounts/" ++ account ++ "/stream/live_inputs".
Proof. reflexivity. Qed.

Lemma append_empty_r (s : string) : s ++ "" = s.
Proof. induction s as [|c s IH]; cbn; [reflexivity | now rewrite IH]. Qed.

Lemma Sprintf_resource_uri (account id : string) :
  Sprintf "/accounts/%s/stream/live_inputs/%s" [account; id]
  = "/accounts/" ++ account ++ "/stream/live_inputs/" ++ id.
Proof. cbn. now rewrite append_empty_r. Qed.

Lemma Sprintf_videos_uri (account id : string) :
  Sprintf "/accounts/%s/stream/live_inputs/%s/videos" [account; id]
  = "/accounts/" ++ account ++ "/stream/live_inputs/" ++ id ++ "/videos".
Proof. reflexivity. Qed.

(** C1. Each of the six operations, called with an empty account
    identifier, returns the [ErrMissingAccountID] sentinel and makes
    no executor invocation. *)
Theorem missing_account_id_rejected
    (ctx : Ctx) (w : World)
    (lo : ListStreamLiveInputsParameters)
    (co : CreateStreamLiveInputParameters Any)
    (so : StreamLiveInputParameters)
    (uo : UpdateStreamLiveInputParameters Any) :
  AccountID lo = "" -> AccountID co = "" ->
  AccountID so = "" -> AccountID uo = "" ->
  (snd (value (ListStreamLiveInputs roundTrip buildURI ctx lo w)) = Some ErrMissingAccountID
   /\ invocations (ListStreamLiveInputs roundTrip buildURI ctx lo w) = [])
  /\ (snd (value (CreateStreamLiveInput roundTrip ctx co w)) = Some ErrMissingAccountID
      /\ invocations (CreateStreamLiveInput roundTrip ctx co w) = [])
  /\ (snd (value (GetStreamLiveInput roundTrip ctx so w)) = Some ErrMissingAccountID
      /\ invocations (GetStreamLiveInput roundTrip ctx so w) = [])
  /\ (snd (value (UpdateStreamLiveInput roundTrip ctx uo w)) = Some ErrMissingAccountID
      /\ invocations (UpdateStreamLiveInput roundTrip ctx uo w) = [])
  /\ (value (DeleteStreamLiveInput roundTrip ctx so w) = Some ErrMissingAccountID
      /\ invocations (DeleteStreamLiveInput roundTrip ctx so w) = [])
  /\ (snd (value (ListStreamLiveInputVideos roundTrip ctx so w)) = Some ErrMissingAccountID
      /\ invocations (ListStreamLiveInputVideos roundTrip ctx so w) = []).
Proof.
  intros Hl Hc Hs Hu.
  unfold ListStreamLiveInputs, CreateStreamLiveInput, GetStreamLiveInput,
    UpdateStreamLiveInput, DeleteStreamLiveInput, ListStreamLiveInputVideos.
  rewrite Hl, Hc, Hs, Hu. cbn. repeat split.
Qed.

(** C2. Each resource-scoped operation, called with an account
    identifier but an empty live-input identifier, returns the
    [ErrMissingLiveInputID] sentinel and makes no executor invocation. *)
Theorem missing_live_input_id_rejected
    (ctx : Ctx) (w : World)
    (so : StreamLiveInputParameters)
    (uo : UpdateStreamLiveInputParameters Any) :
  AccountID so <> "" -> LiveInputID so = "" ->
  AccountID uo <> "" -> LiveInputID uo = "" ->
  (snd (value (GetStreamLiveInput roundTrip ctx so w)) = Some ErrMissingLiveInputID
   /\ invocations (GetStreamLiveInput roundTrip ctx so w) = [])
  /\ (snd (value (UpdateStreamLiveInput roundTrip ctx uo w)) = Some ErrMissingLiveInputID
      /\ invocations (UpdateStreamLiveInput roundTrip ctx uo w) = [])
  /\ (value (DeleteStreamLiveInput roundTrip ctx so w) = Some ErrMissingLiveInputID
      /\ invocations (DeleteStreamLiveInput roundTrip ctx so w) = [])
  /\ (snd (value (ListStreamLiveInputVideos roundTrip ctx so w)) = Some ErrMissingLiveInputID
      /\ invocations (ListStreamLiveInputVideos roundTrip ctx so w) = []).
Proof.
  intros Has Hls Hau Hlu.
  unfold GetStreamLiveInput, UpdateStreamLiveInput, DeleteStreamLiveInput,
    ListStreamLiveInputVideos.
  apply String.eqb_neq in Has, Hau.
  rewrite Has, Hau, Hls, Hlu. cbn. repeat split.
Qed.

(** C9. When both identifiers are empty, each resource-scoped
    operation reports the missing account identifier, not the missing
    live-input identifier. *)
Theorem account_id_checked_first
    (ctx : Ctx) (w : World)
    (so : StreamLiveInputParameters)
    (uo : UpdateStreamLiveInputParameters Any) :
  AccountID so = "" -> LiveInputID so = "" ->
  AccountID uo = "" -> LiveInputID uo = "" ->
  snd (value (GetStreamLiveInput roundTrip ctx so w)) = Some ErrMissingAccountID
  /\ snd (value (UpdateStreamLiveInput roundTrip ctx uo w)) = Some ErrMissingAccountID
  /\ value (DeleteStreamLiveInput roundTrip ctx so w) = Some ErrMissingAccountID
  /\ snd (value (ListStreamLiveInputVideos roundTrip ctx so w)) = Some ErrMissingAccountID
  /\ Some ErrMissingAccountID <> Some ErrMissingLiveInputID.
Proof.
  intros Has _ Hau _.
  unfold GetStreamLiveInput, UpdateStreamLiveInput, DeleteStreamLiveInput,
    ListStreamLiveInputVideos.
  rewrite Has, Hau. cbn. repeat split. discriminate.
Qed.

(** C4. With both identifiers present, [GetStreamLiveInput] and
    [ListStreamLiveInputVideos] each make exactly one executor
    invocation, and its method is POST, which is not GET. *)
Theorem get_and_list_videos_use_post
    (ctx : Ctx) (w : World) (options : StreamLiveInputParameters) :
  AccountID options <> "" -> LiveInputID options <> "" ->
  invocations (GetStreamLiveInput roundTrip ctx options w)
  = [ {| Request_ctx := ctx;
         Request_method := "POST";
         Request_uri := Sprintf "/accounts/%s/stream/live_inputs/%s"
                          [AccountID options; LiveInputID options];
         Request_params := params_LiveInput options |} ]
  /\ invocations (ListStreamLiveInputVideos roundTrip ctx options w)
     = [ {| Request_ctx := ctx;
            Request_method := "POST";
            Request_uri := Sprintf "/accounts/%s/stream/live_inputs/%s/videos"
                             [AccountID options; LiveInputID options];
            Request_params := params_LiveInput options |} ]
  /\ MethodPost = "POST" /\ MethodPost <> MethodGet.
Proof.
  intros Ha Hl.
  unfold GetStreamLiveInput, ListStreamLiveInputVideos.
  apply String.eqb_neq in Ha, Hl. rewrite Ha, Hl.
  unfold bind, makeRequestContext.
  split; [|split; [|split; [reflexivity | discriminate]]].
  - destruct (roundTrip _ w) as [[res [e|]] w']; cbn; [reflexivity|].
    destruct (Unmarshal res zero) as [v [e|]]; reflexivity.
  - destruct (roundTrip _ w) as [[res [e|]] w']; cbn; [reflexivity|].
    destruct (Unmarshal res zero) as [v [e|]]; reflexivity.
Qed.

(** C6. For account [acct1] and live input [li1], the one request made
    by [UpdateStreamLiveInput] and the one made by
    [DeleteStreamLiveInput] go to exactly
    [/accounts/acct1/stream/live_inputs/li1]. *)
Theorem update_delete_target_uri
    (ctx : Ctx) (w : World)
    (so : StreamLiveInputParameters)
    (uo : UpdateStreamLiveInputParameters Any) :
  AccountID uo = "acct1" -> LiveInputID uo = "li1" ->
  AccountID so = "acct1" -> LiveInputID so = "li1" ->
  map Request_uri (invocations (UpdateStreamLiveInput roundTrip ctx uo w))
  = ["/accounts/acct1/stream/live_inputs/li1"]
  /\ map Request_uri (invocations (DeleteStreamLiveInput roundTrip ctx so w))
     = ["/accounts/acct1/stream/live_inputs/li1"].
Proof.
  intros Hau Hlu Has Hls.
  unfold UpdateStreamLiveInput, DeleteStreamLiveInput.
  rewrite Hau, Hlu, Has, Hls.
  change ("acct1" =? "") with false. change ("li1" =? "") with false.
  unfold bind, makeRequestContext. split.
  - destruct (roundTrip _ w) as [[res [e|]] w']; cbn; [reflexivity|].
    destruct (Unmarshal res zero) as [v [e|]]; reflexivity.
  - destruct (roundTrip _ w) as [[res [e|]] w']; reflexivity.
Qed.


(** C10. [DeleteStreamLiveInput] does not look at the response body:
    whatever bytes the executor returns without error, be they
    rejected by every decoder, the error returned is nil. *)
Theorem delete_ignores_response_body
    (ctx : Ctx) (w w' : World) (options : StreamLiveInputParameters)
    (res : bytes) :
  AccountID options <> "" -> LiveInputID options <> "" ->
  roundTrip {| Request_ctx := ctx;
               Request_method := MethodDelete;
               Request_uri := Sprintf "/accounts/%s/stream/live_inputs/%s"
                                [AccountID options; LiveInputID options];
               Request_params := params_LiveInput options |} w
  = ((res, None), w') ->
  value (DeleteStreamLiveInput roundTrip ctx options w) = None
  /\ forall (T : Type) (decode : Unmarshaler T) (v : T),
       snd (Unmarshal res v) <> None ->
       value (DeleteStreamLiveInput roundTrip ctx options w) = None.
Proof.
  intros Ha Hl Hrt.
  assert (Hnil : value (DeleteStreamLiveInput roundTrip ctx options w) = None).
  { unfold DeleteStreamLiveInput.
    apply String.eqb_neq in Ha, Hl. rewrite Ha, Hl.
    unfold bind, makeRequestContext. rewrite Hrt. reflexivity. }
  split; [exact Hnil | intros; exact Hnil].
Qed.

(** C7. When the executor succeeds and the body decodes without error
    to an envelope whose result is the empty array,
    [ListStreamLiveInputs] returns a sequence of length zero and a nil
    error. *)
Theorem list_empty_result
    (ctx : Ctx) (w w' : World) (options : ListStreamLiveInputsParameters)
    (res : bytes) (envelope : StreamLiveInputsListResponse Time Any Response) :
  AccountID options <> "" ->
  roundTrip {| Request_ctx := ctx;
               Request_method := MethodGet;
               Request_uri := buildURI (Sprintf "/accounts/%s/stream/live_inputs"
                                          [AccountID options]) options;
               Request_params := params_nil |} w
  = ((res, None), w') ->
  Unmarshal res zero = (envelope, None) ->
  Result envelope = make_slice [] ->
  value (ListStreamLiveInputs roundTrip buildURI ctx options w) = (make_slice [], None)
  /\ len (fst (value (ListStreamLiveInputs roundTrip buildURI ctx options w))) = 0.
Proof.
  intros Ha Hrt Hdec Hres.
  unfold ListStreamLiveInputs.
  apply String.eqb_neq in Ha. rewrite Ha.
  unfold bind, makeRequestContext. rewrite Hrt.
  cbn [value world invocations]. rewrite Hdec. cbn.
  rewrite Hres. split; reflexivity.
Qed.

(** Decode failure, operation by operation: the executor succeeded,
    the decoder rejected the body, possibly after writing into its
    destination. *)
Lemma ListStreamLiveInputs_decode_failure
    (ctx : Ctx) (w w' : World) (options : ListStreamLiveInputsParameters)
    (res : bytes) (partial : StreamLiveInputsListResponse Time Any Response)
    (e : error) :
  AccountID options <> "" ->
  roundTrip {| Request_ctx := ctx;
               Request_method := MethodGet;
               Request_uri := buildURI (Sprintf "/accounts/%s/stream/live_inputs"
                                          [AccountID options]) options;
               Request_params := params_nil |} w
  = ((res, None), w') ->
  Unmarshal res zero = (partial, Some e) ->
  value (ListStreamLiveInputs roundTrip buildURI ctx options w) = (make_slice [], Some e).
Proof.
  intros Ha Hrt Hdec. unfold ListStreamLiveInputs.
  apply String.eqb_neq in Ha. rewrite Ha.
  unfold bind, makeRequestContext. rewrite Hrt.
  cbn [value world invocations]. rewrite Hdec. reflexivity.
Qed.

Lemma CreateStreamLiveInput_decode_failure
    (ctx : Ctx) (w w' : World) (options : CreateStreamLiveInputParameters Any)
    (res : bytes) (partial : StreamLiveInputResponse Time Any Response)
    (e : error) :
  AccountID options <> "" ->
  roundTrip {| Request_ctx := ctx;
               Request_method := MethodPost;
               Request_uri := Sprintf "/accounts/%s/stream/live_inputs"
                                [AccountID options];
               Request_params := params_Create options |} w
  = ((res, None), w') ->
  Unmarshal res zero = (partial, Some e) ->
  value (CreateStreamLiveInput roundTrip ctx options w) = (zero, Some e).
Proof.
  intros Ha Hrt Hdec. unfold CreateStreamLiveInput.
  apply String.eqb_neq in Ha. rewrite Ha.
  unfold bind, makeRequestContext. rewrite Hrt.
  cbn [value world invocations]. rewrite Hdec. reflexivity.
Qed.

Lemma GetStreamLiveInput_decode_failure
    (ctx : Ctx) (w w' : World) (options : StreamLiveInputParameters)
    (res : bytes) (partial : StreamLiveInputResponse Time Any Response)
    (e : error) :
  AccountID options <> "" -> LiveInputID options <> "" ->
  roundTrip {| Request_ctx := ctx;
               Request_method := MethodPost;
               Request_uri := Sprintf "/accounts/%s/stream/live_inputs/%s"
                                [AccountID options; LiveInputID options];
               Request_params := params_LiveInput options |} w
  = ((res, None), w') ->
  Unmarshal res zero = (partial, Some e) ->
  value (GetStreamLiveInput roundTrip ctx options w) = (zero, Some e).
Proof.
  intros Ha Hl Hrt Hdec. unfold GetStreamLiveInput.
  apply String.eqb_neq in Ha, Hl. rewrite Ha, Hl.
  unfold bind, makeRequestContext. rewrite Hrt.
  cbn [value world invocations]. rewrite Hdec. reflexivity.
Qed.

Lemma UpdateStreamLiveInput_decode_failure
    (ctx : Ctx) (w w' : World) (options : UpdateStreamLiveInputParameters Any)
    (res : bytes) (partial : StreamLiveInputResponse Time Any Response)
    (e : error) :
  AccountID options <> "" -> LiveInputID options <> "" ->
  roundTrip {| Request_ctx := ctx;
               Request_method := MethodPut;
               Request_uri := Sprintf "/accounts/%s/stream/live_inputs/%s"
                                [AccountID options; LiveInputID options];
               Request_params := params_Update options |} w
  = ((res, None), w') ->
  Unmarshal res zero = (partial, Some e) ->
  value (UpdateStreamLiveInput roundTrip ctx options w) = (zero, Some e).
Proof.
  intros Ha Hl Hrt Hdec. unfold UpdateStreamLiveInput.
  apply String.eqb_neq in Ha, Hl. rewrite Ha, Hl.
  unfold bind, makeRequestContext. rewrite Hrt.
  cbn [value world invocations]. rewrite Hdec. reflexivity.
Qed.

Lemma ListStreamLiveInputVideos_decode_failure
    (ctx : Ctx) (w w' : World) (options : StreamLiveInputParameters)
    (res : bytes) (partial : StreamListResponse) (e : error) :
  AccountID options <> "" -> LiveInputID options <> "" ->
  roundTrip {| Request_ctx := ctx;
               Request_method := MethodPost;
               Request_uri := Sprintf "/accounts/%s/stream/live_inputs/%s/videos"
                                [AccountID options; LiveInputID options];
               Request_params := params_LiveInput options |} w
  = ((res, None), w') ->
  Unmarshal res zero = (partial, Some e) ->
  value (ListStreamLiveInputVideos roundTrip ctx options w) = (make_slice [], Some e).
Proof.
  intros Ha Hl Hrt Hdec. unfold ListStreamLiveInputVideos.
  apply String.eqb_neq in Ha, Hl. rewrite Ha, Hl.
  unfold bind, makeRequestContext. rewrite Hrt.
  cbn [value world invocations]. rewrite Hdec. reflexivity.
Qed.

(** C5. When the executor succeeds and the deserialization of the
    response body fails, the operation returns the decoder's error
    next to the zero struct (create, get, update) or next to an
    allocated sequence of length zero (list, list-videos), whatever the
    decoder had written into its destination.  These five are the
    operations that deserialize; [DeleteStreamLiveInput] has no
    deserialization step, so the condition cannot arise for it: when
    the executor succeeds it returns a nil error. *)
Theorem decode_failure_yields_zero_result :
  (forall ctx w w' (options : ListStreamLiveInputsParameters) res partial e,
      AccountID options <> "" ->
      roundTrip {| Request_ctx := ctx;
                   Request_method := MethodGet;
                   Request_uri := buildURI (Sprintf "/accounts/%s/stream/live_inputs"
                                              [AccountID options]) options;
                   Request_params := params_nil |} w
      = ((res, None), w') ->
      Unmarshal res (zero : StreamLiveInputsListResponse Time Any Response)
      = (partial, Some e) ->
      value (ListStreamLiveInputs roundTrip buildURI ctx options w)
      = (make_slice [], Some e))
  /\ (forall ctx w w' (options : CreateStreamLiveInputParameters Any) res partial e,
      AccountID options <> "" ->
      roundTrip {| Request_ctx := ctx;
                   Request_method := MethodPost;
                   Request_uri := Sprintf "/accounts/%s/stream/live_inputs"
                                    [AccountID options];
                   Request_params := params_Create options |} w
      = ((res, None), w') ->
      Unmarshal res (zero : StreamLiveInputResponse Time Any Response)
      = (partial, Some e) ->
      value (CreateStreamLiveInput roundTrip ctx options w) = (zero, Some e))
  /\ (forall ctx w w' (options : StreamLiveInputParameters) res partial e,
      AccountID options <> "" -> LiveInputID options <> "" ->
      roundTrip {| Request_ctx := ctx;
                   Request_method := MethodPost;
                   Request_uri := Sprintf "/accounts/%s/stream/live_inputs/%s"
                                    [AccountID options; LiveInputID options];
                   Request_params := params_LiveInput options |} w
      = ((res, None), w') ->
      Unmarshal res (zero : StreamLiveInputResponse Time Any Response)
      = (partial, Some e) ->
      value (GetStreamLiveInput roundTrip ctx options w) = (zero, Some e))
  /\ (forall ctx w w' (options : UpdateStreamLiveInputParameters Any) res partial e,
      AccountID options <> "" -> LiveInputID options <> "" ->
      roundTrip {| Request_ctx := ctx;
                   Request_method := MethodPut;
                   Request_uri := Sprintf "/accounts/%s/stream/live_inputs/%s"
                                    [AccountID options; LiveInputID options];
                   Request_params := params_Update options |} w
      = ((res, None), w') ->
      Unmarshal res (zero : StreamLiveInputResponse Time Any Response)
      = (partial, Some e) ->
      value (UpdateStreamLiveInput roundTrip ctx options w) = (zero, Some e))
  /\ (forall ctx w w' (options : StreamLiveInputParameters) res partial e,
      AccountID options <> "" -> LiveInputID options <> "" ->
      roundTrip {| Request_ctx := ctx;
                   Request_method := MethodPost;
                   Request_uri := Sprintf "/accounts/%s/stream/live_inputs/%s/videos"
                                    [AccountID options; LiveInputID options];
                   Request_params := params_LiveInput options |} w
      = ((res, None), w') ->
      Unmarshal res (zero : StreamListResponse) = (partial, Some e) ->
      value (ListStreamLiveInputVideos roundTrip ctx options w)
      = (make_slice [], Some e))
  /\ (forall ctx w w' (options : StreamLiveInputParameters) res,
      AccountID options <> "" -> LiveInputID options <> "" ->
      roundTrip {| Request_ctx := ctx;
                   Request_method := MethodDelete;
                   Request_uri := Sprintf "/accounts/%s/stream/live_inputs/%s"
                                    [AccountID options; LiveInputID options];
                   Request_params := params_LiveInput options |} w
      = ((res, None), w') ->
      value (DeleteStreamLiveInput roundTrip ctx options w) = None).
Proof.
  repeat split.
  - intros; eauto using ListStreamLiveInputs_decode_failure.
  - intros; eauto using CreateStreamLiveInput_decode_failure.
  - intros; eauto using GetStreamLiveInput_decode_failure.
  - intros; eauto using UpdateStreamLiveInput_decode_failure.
  - intros; eauto using ListStreamLiveInputVideos_decode_failure.
  - intros ctx w w' options res Ha Hl Hrt. unfold DeleteStreamLiveInput.
    apply String.eqb_neq in Ha, Hl. rewrite Ha, Hl.
    unfold bind, makeRequestContext. rewrite Hrt. reflexivity.
Qed.

(** Every error outcome of [ListStreamLiveInputVideos] comes with an
    allocated sequence of length zero. *)
Lemma ListStreamLiveInputVideos_error_result
    (ctx : Ctx) (w : World) (options : StreamLiveInputParameters) :
  snd (value (ListStreamLiveInputVideos roundTrip ctx options w)) <> None ->
  fst (value (ListStreamLiveInputVideos roundTrip ctx options w)) = make_slice [].
Proof.
  unfold ListStreamLiveInputVideos.
  destruct (AccountID options =? ""); [reflexivity|].
  destruct (LiveInputID options =? ""); [reflexivity|].
  unfold bind, makeRequestContext.
  destruct (roundTrip _ w) as [[res [e|]] w']; cbn; [reflexivity|].
  destruct (Unmarshal res zero) as [v [e|]]; cbn; [reflexivity|].
  intros H; now contradiction H.
Qed.

(** Once the account identifier is present, every error outcome of
    [ListStreamLiveInputs] comes with an allocated sequence of length
    zero. *)
Lemma ListStreamLiveInputs_error_result_after_check
    (ctx : Ctx) (w : World) (options : ListStreamLiveInputsParameters) :
  AccountID options <> "" ->
  snd (value (ListStreamLiveInputs roundTrip buildURI ctx options w)) <> None ->
  fst (value (ListStreamLiveInputs roundTrip buildURI ctx options w)) = make_slice [].
Proof.
  intros Ha. unfold ListStreamLiveInputs.
  apply String.eqb_neq in Ha. rewrite Ha.
  unfold bind, makeRequestContext.
  destruct (roundTrip _ w) as [[res [e|]] w']; cbn; [reflexivity|].
  destruct (Unmarshal res zero) as [v [e|]]; cbn; [reflexivity|].
  intros H; now contradiction H.
Qed.

(** C3, at the input where the code departs from it.  With an empty
    account identifier [ListStreamLiveInputs] returns the nil slice
    next to the error, not an allocated sequence of length zero. *)
Theorem ListStreamLiveInputs_missing_account_returns_nil
    (ctx : Ctx) (w : World) (includeCounts : bool) :
  value (ListStreamLiveInputs roundTrip buildURI ctx
           {| ListStreamLiveInputsParameters_AccountID := "";
              ListStreamLiveInputsParameters_IncludeCounts := includeCounts |} w)
  = (nil_slice, Some ErrMissingAccountID)
  /\ is_nil (fst (value (ListStreamLiveInputs roundTrip buildURI ctx
           {| ListStreamLiveInputsParameters_AccountID := "";
              ListStreamLiveInputsParameters_IncludeCounts := includeCounts |} w)))
     = true
  /\ @nil_slice (StreamLiveInputListItem Time Any) <> make_slice [].
Proof.
  repeat split. discriminate.
Qed.

End Properties.

(** ** Further properties of the operations *)

Section Outcomes.

Context {Ctx Time Any Response StreamVideo StreamListResponse World : Type}.
Context {Response_Zero : Zero Response}.
Context {StreamListResponse_Zero : Zero StreamListResponse}.
Context {StreamListResponse_Result : HasResult StreamListResponse (slice StreamVideo)}.
Variable roundTrip : Request Ctx Any -> World -> (bytes * option error) * World.
Variable buildURI : string -> ListStreamLiveInputsParameters -> string.
Context {Unmarshal_List : Unmarshaler (StreamLiveInputsListResponse Time Any Response)}.
Context {Unmarshal_Input : Unmarshaler (StreamLiveInputResponse Time Any Response)}.
Context {Unmarshal_Videos : Unmarshaler StreamListResponse}.

(** Split an operation into its paths: the identifier checks, the
    executor's reply, the decoder's verdict. *)
Ltac paths :=
  unfold ListStreamLiveInputs, CreateStreamLiveInput, GetStreamLiveInput,
    UpdateStreamLiveInput, DeleteStreamLiveInput, ListStreamLiveInputVideos;
  unfold bind, makeRequestContext, ret;
  repeat (match goal with
          | |- context [?s =? ""] => destruct (s =? "") eqn:?
          | |- context [roundTrip ?r ?w] =>
              destruct (roundTrip r w) as [[? [?|]] ?] eqn:?
          | |- context [Unmarshal ?r ?z] =>
              destruct (Unmarshal r z) as [? [?|]] eqn:?
          end;
          cbn [value world invocations fst snd app length]).

(** The executor's error is returned unchanged, next to the zero struct
    or an allocated sequence of length zero, by each of the six
    operations. *)
Theorem executor_error_propagated :
  (forall ctx w (options : ListStreamLiveInputsParameters) req res e w',
      invocations (ListStreamLiveInputs roundTrip buildURI ctx options w) = [req] ->
      roundTrip req w = ((res, Some e), w') ->
      value (ListStreamLiveInputs roundTrip buildURI ctx options w)
      = (make_slice [], Some e))
  /\ (forall ctx w (options : CreateStreamLiveInputParameters Any) req res e w',
      invocations (CreateStreamLiveInput roundTrip ctx options w) = [req] ->
      roundTrip req w = ((res, Some e), w') ->
      value (CreateStreamLiveInput roundTrip ctx options w) = (zero, Some e))
  /\ (forall ctx w (options : StreamLiveInputParameters) req res e w',
      invocations (GetStreamLiveInput roundTrip ctx options w) = [req] ->
      roundTrip req w = ((res, Some e), w') ->
      value (GetStreamLiveInput roundTrip ctx options w) = (zero, Some e))
  /\ (forall ctx w (options : UpdateStreamLiveInputParameters Any) req res e w',
      invocations (UpdateStreamLiveInput roundTrip ctx options w) = [req] ->
      roundTrip req w = ((res, Some e), w') ->
      value (UpdateStreamLiveInput roundTrip ctx options w) = (zero, Some e))
  /\ (forall ctx w (options : StreamLiveInputParameters) req res e w',
      invocations (DeleteStreamLiveInput roundTrip ctx options w) = [req] ->
      roundTrip req w = ((res, Some e), w') ->
      value (DeleteStreamLiveInput roundTrip ctx options w) = Some e)
  /\ (forall ctx w (options : StreamLiveInputParameters) req res e w',
      invocations (ListStreamLiveInputVideos roundTrip ctx options w) = [req] ->
      roundTrip req w = ((res, Some e), w') ->
      value (ListStreamLiveInputVideos roundTrip ctx options w)
      = (make_slice [], Some e)).
Proof.
  repeat split; intros ctx w options; paths; intros; congruence.
Qed.

(** When the executor and the decoder both succeed, each of the five
    decoding operations returns the result field of the decoded
    envelope, as it is, and a nil error. *)
Theorem decoded_result_returned :
  (forall ctx w (options : ListStreamLiveInputsParameters) req res w' envelope,
      invocations (ListStreamLiveInputs roundTrip buildURI ctx options w) = [req] ->
      roundTrip req w = ((res, None), w') ->
      Unmarshal res (zero : StreamLiveInputsListResponse Time Any Response)
      = (envelope, None) ->
      value (ListStreamLiveInputs roundTrip buildURI ctx options w)
      = (Result envelope, None))
  /\ (forall ctx w (options : CreateStreamLiveInputParameters Any) req res w' envelope,
      invocations (CreateStreamLiveInput roundTrip ctx options w) = [req] ->
      roundTrip req w = ((res, None), w') ->
      Unmarshal res (zero : StreamLiveInputResponse Time Any Response)
      = (envelope, None) ->
      value (CreateStreamLiveInput roundTrip ctx options w) = (Result envelope, None))
  /\ (forall ctx w (options : StreamLiveInputParameters) req res w' envelope,
      invocations (GetStreamLiveInput roundTrip ctx options w) = [req] ->
      roundTrip req w = ((res, None), w') ->
      Unmarshal res (zero : StreamLiveInputResponse Time Any Response)
      = (envelope, None) ->
      value (GetStreamLiveInput roundTrip ctx options w) = (Result envelope, None))
  /\ (forall ctx w (options : UpdateStreamLiveInputParameters Any) req res w' envelope,
      invocations (UpdateStreamLiveInput roundTrip ctx options w) = [req] ->
      roundTrip req w = ((res, None), w') ->
      Unmarshal res (zero : StreamLiveInputResponse Time Any Response)
      = (envelope, None) ->
      value (UpdateStreamLiveInput roundTrip ctx options w) = (Result envelope, None))
  /\ (forall ctx w (options : StreamLiveInputParameters) req res w' envelope,
      invocations (ListStreamLiveInputVideos roundTrip ctx options w) = [req] ->
      roundTrip req w = ((res, None), w') ->
      Unmarshal res (zero : StreamListResponse) = (envelope, None) ->
      value (ListStreamLiveInputVideos roundTrip ctx options w)
      = (Result envelope, None)).
Proof.
  repeat split; intros ctx w options; paths; intros; congruence.
Qed.

(** No operation invokes the executor more than once, whatever its
    input and whatever the executor and the decoder answer. *)
Theorem at_most_one_invocation
    (ctx : Ctx) (w : World)
    (lo : ListStreamLiveInputsParameters)
    (co : CreateStreamLiveInputParameters Any)
    (so : StreamLiveInputParameters)
    (uo : UpdateStreamLiveInputParameters Any) :
  length (invocations (ListStreamLiveInputs roundTrip buildURI ctx lo w)) <= 1
  /\ length (invocations (CreateStreamLiveInput roundTrip ctx co w)) <= 1
  /\ length (invocations (GetStreamLiveInput roundTrip ctx so w)) <= 1
  /\ length (invocations (UpdateStreamLiveInput roundTrip ctx uo w)) <= 1
  /\ length (invocations (DeleteStreamLiveInput roundTrip ctx so w)) <= 1
  /\ length (invocations (ListStreamLiveInputVideos roundTrip ctx so w)) <= 1.
Proof.
  repeat split; paths; auto.
Qed.

(** The executor is invoked exactly when the identifiers the operation
    requires are all non-empty. *)
Theorem invoked_iff_identifiers_present
    (ctx : Ctx) (w : World)
    (lo : ListStreamLiveInputsParameters)
    (co : CreateStreamLiveInputParameters Any)
    (so : StreamLiveInputParameters)
    (uo : UpdateStreamLiveInputParameters Any) :
  (length (invocations (ListStreamLiveInputs roundTrip buildURI ctx lo w)) = 1
   <-> AccountID lo <> "")
  /\ (length (invocations (CreateStreamLiveInput roundTrip ctx co w)) = 1
      <-> AccountID co <> "")
  /\ (length (invocations (GetStreamLiveInput roundTrip ctx so w)) = 1
      <-> AccountID so <> "" /\ LiveInputID so <> "")
  /\ (length (invocations (UpdateStreamLiveInput roundTrip ctx uo w)) = 1
      <-> AccountID uo <> "" /\ LiveInputID uo <> "")
  /\ (length (invocations (DeleteStreamLiveInput roundTrip ctx so w)) = 1
      <-> AccountID so <> "" /\ LiveInputID so <> "")
  /\ (length (invocations (ListStreamLiveInputVideos roundTrip ctx so w)) = 1
      <-> AccountID so <> "" /\ LiveInputID so <> "").
Proof.
  repeat match goal with |- _ /\ _ => split end; paths;
    repeat match goal with
      | H : (_ =? _) = true |- _ => apply String.eqb_eq in H
      | H : (_ =? _) = false |- _ => apply String.eqb_neq in H
      end;
    split; intros; repeat split; try assumption; try discriminate;
    repeat match goal with
      | H : _ /\ _ |- _ => destruct H
      end;
    try contradiction.
Qed.

(** Every invocation carries the caller's context, unchanged. *)
Theorem context_passed_through
    (ctx : Ctx) (w : World)
    (lo : ListStreamLiveInputsParameters)
    (co : CreateStreamLiveInputParameters Any)
    (so : StreamLiveInputParameters)
    (uo : UpdateStreamLiveInputParameters Any) :
  Forall (fun req => Request_ctx req = ctx)
    (invocations (ListStreamLiveInputs roundTrip buildURI ctx lo w)
     ++ invocations (CreateStreamLiveInput roundTrip ctx co w)
     ++ invocations (GetStreamLiveInput roundTrip ctx so w)
     ++ invocations (UpdateStreamLiveInput roundTrip ctx uo w)
     ++ invocations (DeleteStreamLiveInput roundTrip ctx so w)
     ++ invocations (ListStreamLiveInputVideos roundTrip ctx so w))%list.
Proof.
  repeat (apply Forall_app; split); paths; repeat constructor.
Qed.

(** An operation that returns without having invoked the executor
    returns a sentinel error, never a nil error, and leaves the world
    as it found it. *)
Theorem no_invocation_means_sentinel :
  (forall ctx w (options : ListStreamLiveInputsParameters),
      invocations (ListStreamLiveInputs roundTrip buildURI ctx options w) = [] ->
      snd (value (ListStreamLiveInputs roundTrip buildURI ctx options w))
      = Some ErrMissingAccountID
      /\ world (ListStreamLiveInputs roundTrip buildURI ctx options w) = w)
  /\ (forall ctx w (options : CreateStreamLiveInputParameters Any),
      invocations (CreateStreamLiveInput roundTrip ctx options w) = [] ->
      snd (value (CreateStreamLiveInput roundTrip ctx options w))
      = Some ErrMissingAccountID
      /\ world (CreateStreamLiveInput roundTrip ctx options w) = w)
  /\ (forall ctx w (options : StreamLiveInputParameters),
      invocations (GetStreamLiveInput roundTrip ctx options w) = [] ->
      (snd (value (GetStreamLiveInput roundTrip ctx options w))
       = Some ErrMissingAccountID
       \/ snd (value (GetStreamLiveInput roundTrip ctx options w))
          = Some ErrMissingLiveInputID)
      /\ world (GetStreamLiveInput roundTrip ctx options w) = w)
  /\ (forall ctx w (options : UpdateStreamLiveInputParameters Any),
      invocations (UpdateStreamLiveInput roundTrip ctx options w) = [] ->
      (snd (value (UpdateStreamLiveInput roundTrip ctx options w))
       = Some ErrMissingAccountID
       \/ snd (value (UpdateStreamLiveInput roundTrip ctx options w))
          = Some ErrMissingLiveInputID)
      /\ world (UpdateStreamLiveInput roundTrip ctx options w) = w)
  /\ (forall ctx w (options : StreamLiveInputParameters),
      invocations (DeleteStreamLiveInput roundTrip ctx options w) = [] ->
      (value (DeleteStreamLiveInput roundTrip ctx options w)
       = Some ErrMissingAccountID
       \/ value (DeleteStreamLiveInput roundTrip ctx options w)
          = Some ErrMissingLiveInputID)
      /\ world (DeleteStreamLiveInput roundTrip ctx options w) = w)
  /\ (forall ctx w (options : StreamLiveInputParameters),
      invocations (ListStreamLiveInputVideos roundTrip ctx options w) = [] ->
      (snd (value (ListStreamLiveInputVideos roundTrip ctx options w))
       = Some ErrMissingAccountID
       \/ snd (value (ListStreamLiveInputVideos roundTrip ctx options w))
          = Some ErrMissingLiveInputID)
      /\ world (ListStreamLiveInputVideos roundTrip ctx options w) = w).
Proof.
  repeat apply conj; intros ctx w options; paths; intros;
    try discriminate; auto.
Qed.

(** Whatever the error, a single-resource operation returns the zero
    struct next to it. *)
Theorem error_comes_with_zero_struct :
  (forall ctx w (options : CreateStreamLiveInputParameters Any),
      snd (value (CreateStreamLiveInput roundTrip ctx options w)) <> None ->
      fst (value (CreateStreamLiveInput roundTrip ctx options w)) = zero)
  /\ (forall ctx w (options : StreamLiveInputParameters),
      snd (value (GetStreamLiveInput roundTrip ctx options w)) <> None ->
      fst (value (GetStreamLiveInput roundTrip ctx options w)) = zero)
  /\ (forall ctx w (options : UpdateStreamLiveInputParameters Any),
      snd (value (UpdateStreamLiveInput roundTrip ctx options w)) <> None ->
      fst (value (UpdateStreamLiveInput roundTrip ctx options w)) = zero).
Proof.
  repeat apply conj; intros ctx w options; paths; intros;
    solve [reflexivity | contradiction].
Qed.

(** Whatever the error, a list operation returns a sequence without
    elements next to it. *)
Theorem error_comes_with_no_elements :
  (forall ctx w (options : ListStreamLiveInputsParameters),
      snd (value (ListStreamLiveInputs roundTrip buildURI ctx options w)) <> None ->
      len (fst (value (ListStreamLiveInputs roundTrip buildURI ctx options w))) = 0)
  /\ (forall ctx w (options : StreamLiveInputParameters),
      snd (value (ListStreamLiveInputVideos roundTrip ctx options w)) <> None ->
      len (fst (value (ListStreamLiveInputVideos roundTrip ctx options w))) = 0).
Proof.
  repeat apply conj; intros ctx w options; paths; intros;
    solve [reflexivity | contradiction].
Qed.

(** Settle the identifier checks that the hypotheses exclude. *)
Ltac excluded :=
  repeat match goal with
    | H : (_ =? _) = true |- _ => apply String.eqb_eq in H
    end;
  try congruence.

(** With the account identifier present (and, for the update, the
    live-input identifier), the list operation sends GET with no body
    to the URI that [buildURI] makes of the collection path and the
    options, create sends POST with its options to the collection path,
    and update sends PUT with its options to the resource path.  The
    identifiers enter the paths as they are. *)
Theorem list_create_update_requests
    (ctx : Ctx) (w : World)
    (lo : ListStreamLiveInputsParameters)
    (co : CreateStreamLiveInputParameters Any)
    (uo : UpdateStreamLiveInputParameters Any) :
  AccountID lo <> "" -> AccountID co <> "" ->
  AccountID uo <> "" -> LiveInputID uo <> "" ->
  invocations (ListStreamLiveInputs roundTrip buildURI ctx lo w)
  = [ {| Request_ctx := ctx;
         Request_method := "GET";
         Request_uri := buildURI ("/accounts/" ++ AccountID lo ++ "/stream/live_inputs") lo;
         Request_params := params_nil |} ]
  /\ invocations (CreateStreamLiveInput roundTrip ctx co w)
     = [ {| Request_ctx := ctx;
            Request_method := "POST";
            Request_uri := "/accounts/" ++ AccountID co ++ "/stream/live_inputs";
            Request_params := params_Create co |} ]
  /\ invocations (UpdateStreamLiveInput roundTrip ctx uo w)
     = [ {| Request_ctx := ctx;
            Request_method := "PUT";
            Request_uri := "/accounts/" ++ AccountID uo ++ "/stream/live_inputs/"
                             ++ LiveInputID uo;
            Request_params := params_Update uo |} ].
Proof.
  intros Hl Hc Hua Hul.
  repeat split; paths; excluded;
    rewrite ?Sprintf_collection_uri, ?Sprintf_resource_uri; reflexivity.
Qed.

Lemma string_append_assoc (a b c : string) : (a ++ b) ++ c = a ++ b ++ c.
Proof. induction a as [|x a IH]; cbn; [reflexivity | now rewrite IH]. Qed.

(** For the same pair of identifiers, get, update and delete address
    one and the same URI, and list-videos addresses that URI followed
    by [/videos]. *)
Theorem resource_operations_share_uri
    (ctx : Ctx) (w : World)
    (so : StreamLiveInputParameters)
    (uo : UpdateStreamLiveInputParameters Any) :
  AccountID so <> "" -> LiveInputID so <> "" ->
  AccountID uo = AccountID so -> LiveInputID uo = LiveInputID so ->
  map Request_uri (invocations (GetStreamLiveInput roundTrip ctx so w))
  = ["/accounts/" ++ AccountID so ++ "/stream/live_inputs/" ++ LiveInputID so]
  /\ map Request_uri (invocations (UpdateStreamLiveInput roundTrip ctx uo w))
     = ["/accounts/" ++ AccountID so ++ "/stream/live_inputs/" ++ LiveInputID so]
  /\ map Request_uri (invocations (DeleteStreamLiveInput roundTrip ctx so w))
     = ["/accounts/" ++ AccountID so ++ "/stream/live_inputs/" ++ LiveInputID so]
  /\ map Request_uri (invocations (ListStreamLiveInputVideos roundTrip ctx so w))
     = [("/accounts/" ++ AccountID so ++ "/stream/live_inputs/" ++ LiveInputID so)
          ++ "/videos"].
Proof.
  intros Ha Hl Hua Hul.
  assert (AccountID uo <> "") by congruence.
  assert (LiveInputID uo <> "") by congruence.
  repeat split; paths; excluded; cbn [map Request_uri];
    rewrite ?Sprintf_resource_uri, ?Sprintf_videos_uri, ?Hua, ?Hul;
    rewrite ?string_append_assoc; try reflexivity.
  all: change ("/accounts/" ++ AccountID so ++ "/stream/live_inputs/"
                 ++ LiveInputID so ++ "/videos")
         with ("/accounts/" ++ (AccountID so ++ "/stream/live_inputs/"
                 ++ LiveInputID so ++ "/videos"));
    rewrite !string_append_assoc; reflexivity.
Qed.

(** Identifiers are not escaped: a get whose live-input identifier
    ends in [/videos] sends its request to the same method and URI as
    the list-videos of the identifier without that ending. *)
Theorem get_reaches_videos_uri
    (ctx : Ctx) (w w0 : World) (account id : string) :
  account <> "" -> id <> "" ->
  map (fun req => (Request_method req, Request_uri req))
    (invocations (GetStreamLiveInput roundTrip ctx
                    {| StreamLiveInputParameters_AccountID := account;
                       StreamLiveInputParameters_LiveInputID := id ++ "/videos" |} w))
  = map (fun req => (Request_method req, Request_uri req))
      (invocations (ListStreamLiveInputVideos roundTrip ctx
                      {| StreamLiveInputParameters_AccountID := account;
                         StreamLiveInputParameters_LiveInputID := id |} w0)).
Proof.
  intros Ha Hl.
  assert (Hv : id ++ "/videos" <> "") by (destruct id; [congruence | discriminate]).
  unfold GetStreamLiveInput, ListStreamLiveInputVideos.
  cbn [AccountID LiveInputID StreamLiveInputParameters_HasAccountID
         StreamLiveInputParameters_HasLiveInputID
         StreamLiveInputParameters_AccountID StreamLiveInputParameters_LiveInputID].
  apply String.eqb_neq in Ha, Hl, Hv. rewrite Ha, Hl, Hv.
  rewrite Sprintf_resource_uri, Sprintf_videos_uri.
  unfold bind, makeRequestContext.
  destruct (roundTrip _ w) as [[res [e|]] w'];
    destruct (roundTrip _ w0) as [[res0 [e0|]] w0'];
    cbn [value world invocations app map Request_method Request_uri];
    repeat match goal with
      | |- context [Unmarshal ?r ?z] => destruct (Unmarshal r z) as [? [?|]]
      end;
    cbn [value world invocations app map Request_method Request_uri ret];
    reflexivity.
Qed.

(** A nil error is returned only after one invocation that the
    executor answered without error and, for the five decoding
    operations, whose body the decoder accepted; the result returned
    next to it is then the result field of the decoded envelope. *)
Theorem nil_error_means_decoded :
  (forall ctx w (options : ListStreamLiveInputsParameters),
      snd (value (ListStreamLiveInputs roundTrip buildURI ctx options w)) = None ->
      exists req res w' envelope,
        invocations (ListStreamLiveInputs roundTrip buildURI ctx options w) = [req]
        /\ roundTrip req w = ((res, None), w')
        /\ Unmarshal res (zero : StreamLiveInputsListResponse Time Any Response)
           = (envelope, None)
        /\ fst (value (ListStreamLiveInputs roundTrip buildURI ctx options w))
           = Result envelope)
  /\ (forall ctx w (options : CreateStreamLiveInputParameters Any),
      snd (value (CreateStreamLiveInput roundTrip ctx options w)) = None ->
      exists req res w' envelope,
        invocations (CreateStreamLiveInput roundTrip ctx options w) = [req]
        /\ roundTrip req w = ((res, None), w')
        /\ Unmarshal res (zero : StreamLiveInputResponse Time Any Response)
           = (envelope, None)
        /\ fst (value (CreateStreamLiveInput roundTrip ctx options w))
           = Result envelope)
  /\ (forall ctx w (options : StreamLiveInputParameters),
      snd (value (GetStreamLiveInput roundTrip ctx options w)) = None ->
      exists req res w' envelope,
        invocations (GetStreamLiveInput roundTrip ctx options w) = [req]
        /\ roundTrip req w = ((res, None), w')
        /\ Unmarshal res (zero : StreamLiveInputResponse Time Any Response)
           = (envelope, None)
        /\ fst (value (GetStreamLiveInput roundTrip ctx options w))
           = Result envelope)
  /\ (forall ctx w (options : UpdateStreamLiveInputParameters Any),
      snd (value (UpdateStreamLiveInput roundTrip ctx options w)) = None ->
      exists req res w' envelope,
        invocations (UpdateStreamLiveInput roundTrip ctx options w) = [req]
        /\ roundTrip req w = ((res, None), w')
        /\ Unmarshal res (zero : StreamLiveInputResponse Time Any Response)
           = (envelope, None)
        /\ fst (value (UpdateStreamLiveInput roundTrip ctx options w))
           = Result envelope)
  /\ (forall ctx w (options : StreamLiveInputParameters),
      snd (value (ListStreamLiveInputVideos roundTrip ctx options w)) = None ->
      exists req res w' envelope,
        invocations (ListStreamLiveInputVideos roundTrip ctx options w) = [req]
        /\ roundTrip req w = ((res, None), w')
        /\ Unmarshal res (zero : StreamListResponse) = (envelope, None)
        /\ fst (value (ListStreamLiveInputVideos roundTrip ctx options w))
           = Result envelope)
  /\ (forall ctx w (options : StreamLiveInputParameters),
      value (DeleteStreamLiveInput roundTrip ctx options w) = None ->
      exists req res w',
        invocations (DeleteStreamLiveInput roundTrip ctx options w) = [req]
        /\ roundTrip req w = ((res, None), w')).
Proof.
  repeat match goal with |- _ /\ _ => split end;
    intros ctx w options; paths; intros; try discriminate;
    repeat eexists; eassumption.
Qed.

End Outcomes.

(** ** The properties at the canned remote end *)

Import Stub.

(** C1 at empty account identifiers, with nothing queued at the remote end. *)
Lemma missing_account_id_rejected_witness :
  (snd (value (ListStreamLiveInputs roundTrip buildURI background (list_options "") []))
   = Some ErrMissingAccountID
   /\ invocations (ListStreamLiveInputs roundTrip buildURI background (list_options "") [])
      = [])
  /\ (snd (value (CreateStreamLiveInput roundTrip background (create_options "") []))
      = Some ErrMissingAccountID
      /\ invocations (CreateStreamLiveInput roundTrip background (create_options "") [])
         = [])
  /\ (snd (value (GetStreamLiveInput roundTrip background (live_input_options "" "li1") []))
      = Some ErrMissingAccountID
      /\ invocations (GetStreamLiveInput roundTrip background (live_input_options "" "li1") [])
         = [])
  /\ (snd (value (UpdateStreamLiveInput roundTrip background (update_options "" "li1") []))
      = Some ErrMissingAccountID
      /\ invocations (UpdateStreamLiveInput roundTrip background (update_options "" "li1") [])
         = [])
  /\ (value (DeleteStreamLiveInput roundTrip background (live_input_options "" "li1") [])
      = Some ErrMissingAccountID
      /\ invocations (DeleteStreamLiveInput roundTrip background (live_input_options "" "li1") [])
         = [])
  /\ (snd (value (ListStreamLiveInputVideos roundTrip background
                    (live_input_options "" "li1") []))
      = Some ErrMissingAccountID
      /\ invocations (ListStreamLiveInputVideos roundTrip background
                        (live_input_options "" "li1") [])
         = []).
Proof.
  apply (missing_account_id_rejected roundTrip buildURI background []
           (list_options "") (create_options "")
           (live_input_options "" "li1") (update_options "" "li1"));
    reflexivity.
Defined.

(** C2 at account [acct1] and an empty live-input identifier. *)
Lemma missing_live_input_id_rejected_witness :
  (snd (value (GetStreamLiveInput roundTrip background (live_input_options "acct1" "") []))
   = Some ErrMissingLiveInputID
   /\ invocations (GetStreamLiveInput roundTrip background (live_input_options "acct1" "") [])
      = [])
  /\ (snd (value (UpdateStreamLiveInput roundTrip background (update_options "acct1" "") []))
      = Some ErrMissingLiveInputID
      /\ invocations (UpdateStreamLiveInput roundTrip background (update_options "acct1" "") [])
         = [])
  /\ (value (DeleteStreamLiveInput roundTrip background (live_input_options "acct1" "") [])
      = Some ErrMissingLiveInputID
      /\ invocations (DeleteStreamLiveInput roundTrip background
                        (live_input_options "acct1" "") [])
         = [])
  /\ (snd (value (ListStreamLiveInputVideos roundTrip background
                    (live_input_options "acct1" "") []))
      = Some ErrMissingLiveInputID
      /\ invocations (ListStreamLiveInputVideos roundTrip background
                        (live_input_options "acct1" "") [])
         = []).
Proof.
  apply (missing_live_input_id_rejected roundTrip background []
           (live_input_options "acct1" "") (update_options "acct1" ""));
    solve [reflexivity | discriminate].
Defined.

(** C9 at two empty identifiers. *)
Lemma account_id_checked_first_witness :
  snd (value (GetStreamLiveInput roundTrip background (live_input_options "" "") []))
  = Some ErrMissingAccountID
  /\ snd (value (UpdateStreamLiveInput roundTrip background (update_options "" "") []))
     = Some ErrMissingAccountID
  /\ value (DeleteStreamLiveInput roundTrip background (live_input_options "" "") [])
     = Some ErrMissingAccountID
  /\ snd (value (ListStreamLiveInputVideos roundTrip background
                   (live_input_options "" "") []))
     = Some ErrMissingAccountID
  /\ Some ErrMissingAccountID <> Some ErrMissingLiveInputID.
Proof.
  apply (account_id_checked_first roundTrip background []
           (live_input_options "" "") (update_options "" ""));
    reflexivity.
Defined.

(** C4 at account [acct1] and live input [li1], the remote end holding
    one reply. *)
Lemma get_and_list_videos_use_post_witness :
  map Request_method
    (invocations (GetStreamLiveInput roundTrip background
                    (live_input_options "acct1" "li1") [(live_input_body, None)]))
  = ["POST"]
  /\ map Request_method
       (invocations (ListStreamLiveInputVideos roundTrip background
                       (live_input_options "acct1" "li1") [(empty_list_body, None)]))
     = ["POST"].
Proof.
  destruct (get_and_list_videos_use_post roundTrip background
              [(live_input_body, None)] (live_input_options "acct1" "li1"))
    as (Hget & _); [discriminate | discriminate |].
  destruct (get_and_list_videos_use_post roundTrip background
              [(empty_list_body, None)] (live_input_options "acct1" "li1"))
    as (_ & Hvideos & _); [discriminate | discriminate |].
  rewrite Hget, Hvideos. split; reflexivity.
Defined.

(** C6 at the identifiers it names. *)
Lemma update_delete_target_uri_witness :
  map Request_uri
    (invocations (UpdateStreamLiveInput roundTrip background
                    (update_options "acct1" "li1") [(live_input_body, None)]))
  = ["/accounts/acct1/stream/live_inputs/li1"]
  /\ map Request_uri
       (invocations (DeleteStreamLiveInput roundTrip background
                       (live_input_options "acct1" "li1") [(live_input_body, None)]))
     = ["/accounts/acct1/stream/live_inputs/li1"].
Proof.
  apply (update_delete_target_uri roundTrip background [(live_input_body, None)]
           (live_input_options "acct1" "li1") (update_options "acct1" "li1"));
    reflexivity.
Defined.


(** C10 at a reply that the decoder rejects. *)
Lemma delete_ignores_response_body_witness :
  snd (Unmarshal truncated_body (zero : StreamLiveInputResponse Time Any Response))
  = Some syntax_error
  /\ value (DeleteStreamLiveInput roundTrip background
              (live_input_options "acct1" "li1") [(truncated_body, None)])
     = None.
Proof.
  split; [reflexivity|].
  apply (delete_ignores_response_body roundTrip background
           [(truncated_body, None)] [] (live_input_options "acct1" "li1")
           truncated_body);
    solve [reflexivity | discriminate].
Defined.

(** C7 at a reply whose result is the empty array. *)
Lemma list_empty_result_witness :
  value (ListStreamLiveInputs roundTrip buildURI background
           (list_options "acct1") [(empty_list_body, None)])
  = (make_slice [], None)
  /\ len (fst (value (ListStreamLiveInputs roundTrip buildURI background
                        (list_options "acct1") [(empty_list_body, None)])))
     = 0.
Proof.
  apply (list_empty_result roundTrip buildURI background
           [(empty_list_body, None)] [] (list_options "acct1") empty_list_body
           (fst (Unmarshal empty_list_body zero)));
    solve [reflexivity | discriminate].
Defined.

(** C5 at a reply cut short: the decoder has already written the uid
    into its destination when it fails, and [GetStreamLiveInput] still
    returns the zero struct. *)
Lemma decode_failure_yields_zero_result_witness :
  StreamLiveInput_UID _ _
    (Result (fst (Unmarshal truncated_body
                    (zero : StreamLiveInputResponse Time Any Response))))
  = "li1"
  /\ value (GetStreamLiveInput roundTrip background
              (live_input_options "acct1" "li1") [(truncated_body, None)])
     = (zero, Some syntax_error).
Proof.
  split; [reflexivity|].
  destruct (decode_failure_yields_zero_result
              (Time := Time) (Response := Response)
              (StreamVideo := StreamVideo) (StreamListResponse := StreamListResponse)
              roundTrip buildURI)
    as (_ & _ & Hget & _).
  apply (Hget background [(truncated_body, None)] []
           (live_input_options "acct1" "li1") truncated_body
           (fst (Unmarshal truncated_body zero)) syntax_error);
    solve [reflexivity | discriminate].
Defined.

(** ** The further properties at the canned remote end *)

(** With nothing queued the canned executor refuses the connection, and
    [GetStreamLiveInput] hands that error back. *)
Lemma executor_error_propagated_witness :
  value (GetStreamLiveInput roundTrip background (live_input_options "acct1" "li1") [])
  = (zero, Some (OtherError "connection refused")).
Proof.
  destruct (executor_error_propagated
              (Time := Time) (Response := Response)
              (StreamVideo := StreamVideo) (StreamListResponse := StreamListResponse)
              roundTrip buildURI)
    as (_ & _ & Hget & _).
  apply (Hget background [] (live_input_options "acct1" "li1")
           {| Request_ctx := background;
              Request_method := MethodPost;
              Request_uri := "/accounts/acct1/stream/live_inputs/li1";
              Request_params := params_LiveInput (live_input_options "acct1" "li1") |}
           [] (OtherError "connection refused") []);
    reflexivity.
Defined.

(** A well-formed reply to [GetStreamLiveInput] comes back decoded. *)
Lemma decoded_result_returned_witness :
  value (GetStreamLiveInput roundTrip background
           (live_input_options "acct1" "li1") [(live_input_body, None)])
  = (with_uid "li1" zero, None).
Proof.
  destruct (decoded_result_returned
              (Time := Time) (Response := Response)
              (StreamVideo := StreamVideo) (StreamListResponse := StreamListResponse)
              roundTrip buildURI)
    as (_ & _ & Hget & _).
  exact (Hget background [(live_input_body, None)] (live_input_options "acct1" "li1")
           {| Request_ctx := background;
              Request_method := MethodPost;
              Request_uri := "/accounts/acct1/stream/live_inputs/li1";
              Request_params := params_LiveInput (live_input_options "acct1" "li1") |}
           live_input_body []
           (fst (Unmarshal live_input_body zero))
           eq_refl eq_refl eq_refl).
Defined.

(** A delete without a live-input identifier leaves the queued reply
    where it is. *)
Lemma no_invocation_means_sentinel_witness :
  (value (DeleteStreamLiveInput roundTrip background (live_input_options "acct1" "")
            [(live_input_body, None)])
   = Some ErrMissingAccountID
   \/ value (DeleteStreamLiveInput roundTrip background (live_input_options "acct1" "")
               [(live_input_body, None)])
      = Some ErrMissingLiveInputID)
  /\ world (DeleteStreamLiveInput roundTrip background (live_input_options "acct1" "")
              [(live_input_body, None)])
     = [(live_input_body, None)].
Proof.
  destruct (no_invocation_means_sentinel
              (Time := Time) (Response := Response)
              (StreamVideo := StreamVideo) (StreamListResponse := StreamListResponse)
              roundTrip buildURI)
    as (_ & _ & _ & _ & Hdelete & _).
  apply (Hdelete background [(live_input_body, None)] (live_input_options "acct1" "")).
  reflexivity.
Defined.

(** An update answered by a reply cut short fails with the zero struct. *)
Lemma error_comes_with_zero_struct_witness :
  snd (value (UpdateStreamLiveInput roundTrip background
                (update_options "acct1" "li1") [(truncated_body, None)]))
  = Some syntax_error
  /\ fst (value (UpdateStreamLiveInput roundTrip background
                   (update_options "acct1" "li1") [(truncated_body, None)]))
     = zero.
Proof.
  split; [reflexivity|].
  destruct (error_comes_with_zero_struct
              (Time := Time) (Response := Response) roundTrip)
    as (_ & _ & Hupdate).
  apply (Hupdate background [(truncated_body, None)] (update_options "acct1" "li1")).
  discriminate.
Defined.

(** A list without an account identifier fails with a sequence of
    length zero. *)
Lemma error_comes_with_no_elements_witness :
  len (fst (value (ListStreamLiveInputs roundTrip buildURI background
                     (list_options "") [])))
  = 0.
Proof.
  destruct (error_comes_with_no_elements
              (Time := Time) (Response := Response)
              (StreamVideo := StreamVideo) (StreamListResponse := StreamListResponse)
              roundTrip buildURI)
    as (Hlist & _).
  apply (Hlist background [] (list_options "")).
  discriminate.
Defined.

(** A create that returned a nil error did invoke the executor, and
    the decoder accepted the body. *)
Lemma nil_error_means_decoded_witness :
  exists req res w' envelope,
    invocations (CreateStreamLiveInput roundTrip background
                   (create_options "acct1") [(live_input_body, None)])
    = [req]
    /\ roundTrip req [(live_input_body, None)] = ((res, None), w')
    /\ Unmarshal res (zero : StreamLiveInputResponse Time Any Response)
       = (envelope, None)
    /\ fst (value (CreateStreamLiveInput roundTrip background
                     (create_options "acct1") [(live_input_body, None)]))
       = Result envelope.
Proof.
  destruct (nil_error_means_decoded
              (Time := Time) (Response := Response)
              (StreamVideo := StreamVideo) (StreamListResponse := StreamListResponse)
              roundTrip buildURI)
    as (_ & Hcreate & _).
  apply (Hcreate background [(live_input_body, None)] (create_options "acct1")).
  reflexivity.
Defined.

(** The requests of list, create and update for account [acct1] and
    live input [li1]. *)
Lemma list_create_update_requests_witness :
  invocations (ListStreamLiveInputs roundTrip buildURI background (list_options "acct1") [])
  = [ {| Request_ctx := background;
         Request_method := "GET";
         Request_uri := "/accounts/acct1/stream/live_inputs";
         Request_params := params_nil |} ]
  /\ invocations (CreateStreamLiveInput roundTrip background (create_options "acct1") [])
     = [ {| Request_ctx := background;
            Request_method := "POST";
            Request_uri := "/accounts/acct1/stream/live_inputs";
            Request_params := params_Create (create_options "acct1") |} ]
  /\ invocations (UpdateStreamLiveInput roundTrip background
                    (update_options "acct1" "li1") [])
     = [ {| Request_ctx := background;
            Request_method := "PUT";
            Request_uri := "/accounts/acct1/stream/live_inputs/li1";
            Request_params := params_Update (update_options "acct1" "li1") |} ].
Proof.
  apply (list_create_update_requests (Time := Time) (Response := Response)
           roundTrip buildURI background []
           (list_options "acct1") (create_options "acct1")
           (update_options "acct1" "li1"));
    discriminate.
Defined.

(** The URIs of the four resource-scoped operations for account
    [acct1] and live input [li1]. *)
Lemma resource_operations_share_uri_witness :
  map Request_uri (invocations (GetStreamLiveInput roundTrip background
                                  (live_input_options "acct1" "li1") []))
  = ["/accounts/acct1/stream/live_inputs/li1"]
  /\ map Request_uri (invocations (UpdateStreamLiveInput roundTrip background
                                     (update_options "acct1" "li1") []))
     = ["/accounts/acct1/stream/live_inputs/li1"]
  /\ map Request_uri (invocations (DeleteStreamLiveInput roundTrip background
                                     (live_input_options "acct1" "li1") []))
     = ["/accounts/acct1/stream/live_inputs/li1"]
  /\ map Request_uri (invocations (ListStreamLiveInputVideos roundTrip background
                                     (live_input_options "acct1" "li1") []))
     = ["/accounts/acct1/stream/live_inputs/li1/videos"].
Proof.
  apply (resource_operations_share_uri (Time := Time) (Response := Response)
           roundTrip background []
           (live_input_options "acct1" "li1") (update_options "acct1" "li1"));
    solve [reflexivity | discriminate].
Defined.

(** A get for the live input [li1/videos] and the list-videos of [li1]
    send the same method to the same URI. *)
Lemma get_reaches_videos_uri_witness :
  map (fun req => (Request_method req, Request_uri req))
    (invocations (GetStreamLiveInput roundTrip background
                    (live_input_options "acct1" "li1/videos") []))
  = map (fun req => (Request_method req, Request_uri req))
      (invocations (ListStreamLiveInputVideos roundTrip background
                      (live_input_options "acct1" "li1") [])).
Proof.
  apply (get_reaches_videos_uri (Time := Time) (Response := Response)
           roundTrip background [] [] "acct1" "li1");
    discriminate.
Defined.

(** A list-videos against a remote end that refuses the connection. *)
Lemma ListStreamLiveInputVideos_error_result_witness :
  fst (value (ListStreamLiveInputVideos roundTrip background
                (live_input_options "acct1" "li1") []))
  = make_slice [].
Proof.
  apply (ListStreamLiveInputVideos_error_result roundTrip background []
           (live_input_options "acct1" "li1")).
  discriminate.
Defined.

(** A list against a remote end that refuses the connection. *)
Lemma ListStreamLiveInputs_error_result_after_check_witness :
  fst (value (ListStreamLiveInputs roundTrip buildURI background
                (list_options "acct1") []))
  = make_slice [].
Proof.
  apply (ListStreamLiveInputs_error_result_after_check roundTrip buildURI
           background [] (list_options "acct1"));
    discriminate.
Defined.
